(** * Booking cancellation handler (cancel-booking/cancel.py)

    A shallow embedding of the Lambda function that cancels a booking:
    [cancel_booking] issues one conditional [update_item] against the booking
    table and translates a [ClientError] into a
    [BookingCancellationException]; [lambda_handler] validates the event,
    calls [cancel_booking], annotates the trace and re-raises.

    Python values are an inductive type, exceptions are an inductive type and
    the three things the code touches besides its arguments (the table, the
    tracer, the logger) live in an explicit [World] threaded by a small
    state-and-exception monad [Py]. *)

From stdpp Require Import gmap strings list fin_maps.
From Stdlib Require Import ZArith.

Set Warnings "-register-all".

Local Open Scope Z_scope.
Local Open Scope string_scope.
Local Open Scope list_scope.

(** ** Python values *)

(** The values a Step Functions event (decoded JSON) can hold and that boto3's
    Table resource accepts and returns as attribute values.  Floats are left
    out, and integers are taken to be ones boto3 can serialise (up to 38
    digits): on a float or a longer integer its serialiser raises an
    exception of its own before any request is sent.  Statements about what
    a failing call raises are therefore made for string identifiers, or
    under a hypothesis on the answer of the service. *)
Inductive PyVal : Type :=
| PNone
| PBool (b : bool)
| PInt (z : Z)
| PStr (s : string)
| PList (l : list PyVal)
| PDict (d : list (string * PyVal)).

(** The comparison DynamoDB's [=] makes between two attribute values: same
    type and same contents. *)
Fixpoint py_eqb (a b : PyVal) {struct a} : bool :=
  match a, b with
  | PNone, PNone => true
  | PBool x, PBool y => Bool.eqb x y
  | PInt x, PInt y => Z.eqb x y
  | PStr x, PStr y => String.eqb x y
  | PList xs, PList ys =>
      (fix go (xs ys : list PyVal) {struct xs} : bool :=
         match xs, ys with
         | [], [] => true
         | x :: xs', y :: ys' => py_eqb x y && go xs' ys'
         | _, _ => false
         end) xs ys
  | PDict xs, PDict ys =>
      (fix go (xs ys : list (string * PyVal)) {struct xs} : bool :=
         match xs, ys with
         | [], [] => true
         | (k, x) :: xs', (k', y) :: ys' =>
             String.eqb k k' && py_eqb x y && go xs' ys'
         | _, _ => false
         end) xs ys
  | _, _ => false
  end.

(** A decoded JSON object or an item's attributes: a dict with string
    keys. *)
Abbreviation Item := (gmap string PyVal).
Abbreviation Event := (gmap string PyVal).

(** ** Exceptions *)

(** botocore's [ClientError]: an error response of the service, identified by
    its error code. *)
Record ClientError : Type := mkClientError { error_code : string }.

Definition ConditionalCheckFailedException : ClientError :=
  mkClientError "ConditionalCheckFailedException".
Definition ValidationException : ClientError :=
  mkClientError "ValidationException".
Definition ProvisionedThroughputExceededException : ClientError :=
  mkClientError "ProvisionedThroughputExceededException".
Definition InternalServerError : ClientError :=
  mkClientError "InternalServerError".

(** [class BookingCancellationException(Exception)] with its three instance
    attributes.  [details] holds whatever object the raiser passed: the empty
    dict of the default, the store's [ClientError] (in [cancel_booking]) or
    another [BookingCancellationException] (in [lambda_handler]). *)
Inductive BookingCancellationException : Type :=
| mkBookingCancellationException
    (message : string) (status_code : Z) (details : Payload)
with Payload : Type :=
| EmptyDict
| OfClientError (err : ClientError)
| OfBookingCancellation (err : BookingCancellationException).

Definition message (e : BookingCancellationException) : string :=
  match e with mkBookingCancellationException m _ _ => m end.
Definition status_code (e : BookingCancellationException) : Z :=
  match e with mkBookingCancellationException _ c _ => c end.
Definition details (e : BookingCancellationException) : Payload :=
  match e with mkBookingCancellationException _ _ d => d end.

(** Python truthiness of the arguments of [__init__], as [or] tests it: the
    empty string, zero and the empty dict are falsy, an exception object is
    truthy. *)
Definition truthy_str (s : string) : bool := negb (String.eqb s EmptyString).
Definition truthy_int (z : Z) : bool := negb (Z.eqb z 0).
Definition truthy_payload (p : Payload) : bool :=
  match p with
  | EmptyDict => false
  | OfClientError _ | OfBookingCancellation _ => true
  end.

(** [a or b] where [a] may be [None]. *)
Definition py_or {A : Type} (truthy : A -> bool) (a : option A) (b : A) : A :=
  match a with
  | Some x => if truthy x then x else b
  | None => b
  end.

(** [BookingCancellationException.__init__(message=None, status_code=None,
    details=None)]. *)
Definition BookingCancellationException_init
    (message : option string) (status_code : option Z)
    (details : option Payload) : BookingCancellationException :=
  mkBookingCancellationException
    (py_or truthy_str message "Booking cancellation failed")
    (py_or truthy_int status_code 500)
    (py_or truthy_payload details EmptyDict).

(** The exceptions that occur in the module. *)
Inductive PyExn : Type :=
| ValueError (arg : string)
| KeyError (key : string)
| ClientErrorExn (err : ClientError)
| BookingCancellationExn (err : BookingCancellationException).

(** [isinstance(e, BookingCancellationException)]. *)
Definition isinstance_BookingCancellationException (e : PyExn) : bool :=
  match e with BookingCancellationExn _ => true | _ => false end.
(** [isinstance(e, ValueError)]. *)
Definition isinstance_ValueError (e : PyExn) : bool :=
  match e with ValueError _ => true | _ => false end.



(** ** The booking table

    [table = dynamodb.Table(table_name)] is an external service.  It is
    modelled as a map from the hash key [id] (a string) to the remaining
    attributes of the item; the key attribute of an item is the key it is
    stored under. *)
Abbreviation Table := (gmap string (gmap string PyVal)).

Definition key_attribute : string := "id".

(** An attribute name in an expression: written out, or a [#placeholder]
    resolved through [ExpressionAttributeNames]. *)
Inductive NameRef : Type :=
| AttrName (name : string)
| NamePlaceholder (ph : string).

(** [ConditionExpression] of the form [name = :value]. *)
Inductive ConditionExpr : Type :=
| CondEq (lhs : NameRef) (rhs : string).

(** [UpdateExpression] of the form [SET name = :value]. *)
Inductive UpdateExpr : Type :=
| UpdSet (target : NameRef) (rhs : string).

Inductive ReturnValuesOpt : Type :=
| RV_NONE | RV_ALL_OLD | RV_UPDATED_OLD | RV_ALL_NEW | RV_UPDATED_NEW.

(** The keyword arguments of [table.update_item]. *)
Record UpdateItemRequest : Type := mkUpdateItemRequest {
  Key : list (string * PyVal);
  ConditionExpression : ConditionExpr;
  UpdateExpression : UpdateExpr;
  ExpressionAttributeNames : list (string * string);
  ExpressionAttributeValues : list (string * PyVal);
  ReturnValues : ReturnValuesOpt
}.

(** The response of [update_item]: the [Attributes] that [ReturnValues]
    selects. *)
Record UpdateItemResponse : Type := mkUpdateItemResponse {
  Attributes : gmap string PyVal
}.

Fixpoint assoc {A : Type} (l : list (string * A)) (k : string) : option A :=
  match l with
  | [] => None
  | (k', v) :: l' => if String.eqb k' k then Some v else assoc l' k
  end.

Definition resolve_name (names : list (string * string)) (r : NameRef)
  : option string :=
  match r with
  | AttrName n => Some n
  | NamePlaceholder ph => assoc names ph
  end.

(** The hash key a request addresses: [Key] must give exactly the key
    attribute, with a string value (the key schema's type). *)
Definition request_key (req : UpdateItemRequest) : option string :=
  match Key req with
  | [(n, PStr k)] => if String.eqb n key_attribute then Some k else None
  | _ => None
  end.

(** An attribute of the item stored under [k]. *)
Definition item_attr (k : string) (attrs : gmap string PyVal) (name : string)
  : option PyVal :=
  if String.eqb name key_attribute then Some (PStr k) else attrs !! name.

(** The condition on the current item; an item that does not exist has no
    attribute, so a comparison on it is false.  [None]: a placeholder of the
    expression is not bound. *)
Definition eval_condition (req : UpdateItemRequest) (k : string)
    (existing : option (gmap string PyVal)) : option bool :=
  match ConditionExpression req with
  | CondEq lhs rhs =>
      n ← resolve_name (ExpressionAttributeNames req) lhs;
      v ← assoc (ExpressionAttributeValues req) rhs;
      Some match existing with
           | Some attrs =>
               match item_attr k attrs n with
               | Some x => py_eqb x v
               | None => false
               end
           | None => false
           end
  end.

(** The assignment of the update expression: attribute name and new value.
    [None]: unbound placeholder, or an assignment to the key attribute. *)
Definition eval_update (req : UpdateItemRequest) : option (string * PyVal) :=
  match UpdateExpression req with
  | UpdSet target rhs =>
      n ← resolve_name (ExpressionAttributeNames req) target;
      v ← assoc (ExpressionAttributeValues req) rhs;
      if String.eqb n key_attribute then None else Some (n, v)
  end.

Definition returned_attributes (rv : ReturnValuesOpt) (k : string)
    (old : option (gmap string PyVal)) (n : string) (v : PyVal)
    (new : gmap string PyVal) : gmap string PyVal :=
  match rv with
  | RV_NONE => ∅
  | RV_ALL_OLD =>
      match old with
      | Some attrs => <[key_attribute := PStr k]> attrs
      | None => ∅
      end
  | RV_UPDATED_OLD =>
      match old ≫= (.!! n) with
      | Some x => {[n := x]}
      | None => ∅
      end
  | RV_ALL_NEW => <[key_attribute := PStr k]> new
  | RV_UPDATED_NEW => {[n := v]}
  end.

(** DynamoDB's UpdateItem on a table: the request is validated, the condition
    is evaluated on the current item, and when it holds the assignment is
    applied to that item, or to a new item when there is none (UpdateItem
    creates a missing item unless a condition prevents it). *)
Definition dynamodb_update_item (tbl : gmap string (gmap string PyVal))
    (req : UpdateItemRequest)
  : ClientError + (gmap string (gmap string PyVal) * UpdateItemResponse) :=
  match request_key req with
  | None => inl ValidationException
  | Some k =>
      let existing := tbl !! k in
      match eval_condition req k existing, eval_update req with
      | Some true, Some (n, v) =>
          let new := <[n := v]> (default ∅ existing) in
          inr (<[k := new]> tbl,
               mkUpdateItemResponse
                 (returned_attributes (ReturnValues req) k existing n v new))
      | Some false, Some _ => inl ConditionalCheckFailedException
      | _, _ => inl ValidationException
      end
  end.

(** ** The world the module runs in *)

(** What the tracer's segment receives. *)
Inductive MetaVal : Type :=
| MetaResponse (r : UpdateItemResponse)
| MetaException (e : BookingCancellationException).

Inductive TraceEvent : Type :=
| Annotation (key : string) (value : string)
| Metadata (key : PyVal) (value : MetaVal).

Inductive LogLevel : Type := DEBUG | INFO | ERROR.

(** - [table]: the items of the booking table;
    - [pending]: what the service will answer to the coming calls, one entry
      per call: [Some err] is a rejection of the request for a reason of the
      service's own (throttling, an internal error, a missing table), [None]
      (or no entry) lets the request through;
    - [calls]: the [update_item] requests received so far, oldest first;
    - [trace]: the annotations and metadata put on the segment, oldest first;
    - [logs]: the log records emitted, oldest first. *)
Record World : Type := mkWorld {
  table : gmap string (gmap string PyVal);
  pending : list (option ClientError);
  calls : list UpdateItemRequest;
  trace : list TraceEvent;
  logs : list (LogLevel * string)
}.

(** The service's answer to the next call, when it is a rejection. *)
Definition next_fault (w : World) : option ClientError :=
  match pending w with
  | Some err :: _ => Some err
  | _ => None
  end.

(** ** A state and exception monad for Python code *)

Inductive Outcome (A : Type) : Type :=
| Returned (a : A)
| Raised (e : PyExn).
Arguments Returned {A} a.
Arguments Raised {A} e.

Definition Py (A : Type) : Type := World -> Outcome A * World.

Definition ret {A : Type} (a : A) : Py A := fun w => (Returned a, w).

Definition raise {A : Type} (e : PyExn) : Py A := fun w => (Raised e, w).

Definition bind {A B : Type} (m : Py A) (k : A -> Py B) : Py B :=
  fun w =>
    match m w with
    | (Returned a, w') => k a w'
    | (Raised e, w') => (Raised e, w')
    end.

(** [try: body except <class> as err: handler]: [handler e] is [None] when
    [e] is not an instance of the class the clause names, and the exception
    then propagates. *)
Definition try_except {A : Type} (body : Py A)
    (handler : PyExn -> option (Py A)) : Py A :=
  fun w =>
    match body w with
    | (Returned a, w') => (Returned a, w')
    | (Raised e, w') =>
        match handler e with
        | Some h => h w'
        | None => (Raised e, w')
        end
    end.

(** The two components of a run. *)
Definition result {A : Type} (m : Py A) (w : World) : Outcome A := fst (m w).
Definition final {A : Type} (m : Py A) (w : World) : World := snd (m w).

Declare Scope py_scope.
Delimit Scope py_scope with py.
Notation "x <- m ;; k" := (bind m (fun x => k))
  (at level 100, m at next level, right associativity) : py_scope.
Notation "m ;; k" := (bind m (fun _ => k))
  (at level 100, right associativity) : py_scope.
Local Open Scope py_scope.

(** ** Collaborators *)

(** What the service answers to a request in a given world: the pending
    rejection when there is one, else the outcome of processing the request
    on the table. *)
Definition service_answer (w : World) (req : UpdateItemRequest)
  : ClientError + (gmap string (gmap string PyVal) * UpdateItemResponse) :=
  match next_fault w with
  | Some err => inl err
  | None => dynamodb_update_item (table w) req
  end.

(** [table.update_item] called with the keyword arguments [req]: the call
    reaches the table, which consumes its next pending answer.  A rejected
    request leaves the items as they are; either kind of rejection is raised
    as a [ClientError].  The call has these two outcomes only: failures of
    the client library around the request (a value it cannot serialise, a
    connection that cannot be made), which are not [ClientError]s, are not
    part of this model. *)
Definition update_item (req : UpdateItemRequest) : Py UpdateItemResponse :=
  fun w =>
    match service_answer w req with
    | inl err =>
        (Raised (ClientErrorExn err),
         mkWorld (table w) (tail (pending w)) (calls w ++ [req])
                 (trace w) (logs w))
    | inr (tbl', resp) =>
        (Returned resp,
         mkWorld tbl' (tail (pending w)) (calls w ++ [req])
                 (trace w) (logs w))
    end.

(** Modelled from the spec: the [Tracer] of the shared
    [lambda_python_powertools] library is not part of the sources at hand.
    The tracing sink accepts key/value annotations tied to the current
    invocation, fire-and-forget: [put_annotation] appends an annotation to
    the invocation's segment and never fails. *)
Definition put_annotation (key value : string) : Py unit :=
  fun w =>
    (Returned tt,
     mkWorld (table w) (pending w) (calls w)
             (trace w ++ [Annotation key value]) (logs w)).

(** Modelled from the spec: [Tracer.put_metadata], as [put_annotation]: the
    sink accepts a key and a value to attach, fire-and-forget. *)
Definition put_metadata (key : PyVal) (value : MetaVal) : Py unit :=
  fun w =>
    (Returned tt,
     mkWorld (table w) (pending w) (calls w)
             (trace w ++ [Metadata key value]) (logs w)).

(** [logger.debug], [logger.info] and [logger.error] of the standard
    [logging] module: a record is emitted, nothing else changes.  The record
    keeps the level and a label of the message. *)
Definition log (level : LogLevel) (label : string) : Py unit :=
  fun w =>
    (Returned tt,
     mkWorld (table w) (pending w) (calls w) (trace w)
             (logs w ++ [(level, label)])).

(** [d[key]] on a dict. *)
Definition getitem (d : gmap string PyVal) (key : string) : Py PyVal :=
  match d !! key with
  | Some v => ret v
  | None => raise (KeyError key)
  end.

(** ** The module's functions *)

(** The request [cancel_booking] builds (lines 35-42):
    [Key={"id": booking_id}], [ConditionExpression="id = :idVal"],
    [UpdateExpression="SET #STATUS = :cancelled"],
    [ExpressionAttributeNames={"#STATUS": "status"}],
    [ExpressionAttributeValues={":idVal": booking_id, ":cancelled": "CANCELLED"}],
    [ReturnValues="UPDATED_NEW"]. *)
Definition cancel_request (booking_id : PyVal) : UpdateItemRequest :=
  {| Key := [("id", booking_id)];
     ConditionExpression := CondEq (AttrName "id") ":idVal";
     UpdateExpression := UpdSet (NamePlaceholder "#STATUS") ":cancelled";
     ExpressionAttributeNames := [("#STATUS", "status")];
     ExpressionAttributeValues :=
       [(":idVal", booking_id); (":cancelled", PStr "CANCELLED")];
     ReturnValues := RV_UPDATED_NEW |}.

(** [cancel_booking(booking_id)].  The [@tracer.capture_method] decorator
    belongs to the tracing library; it passes the result or the exception of
    the function through and is not modelled. *)
Definition cancel_booking (booking_id : PyVal) : Py bool :=
  try_except
    (log DEBUG "cancel_booking" ;;
     ret_ <- update_item (cancel_request booking_id) ;;
     log INFO "cancel_booking" ;;
     log DEBUG "Adding update item operation result as tracing metadata" ;;
     put_metadata booking_id (MetaResponse ret_) ;;
     ret true)
    (fun e =>
       match e with
       | ClientErrorExn err =>
           Some (log DEBUG "cancel_booking" ;;
                 raise (BookingCancellationExn
                          (BookingCancellationException_init
                             None None (Some (OfClientError err)))))
       | _ => None
       end).

(** [lambda_handler(event, context)]; [context] is not used by the body.  The
    decorators [@tracer.capture_lambda_handler] and
    [@logger_inject_lambda_context] belong to the shared library and wrap
    this body; they are not modelled. *)
Definition lambda_handler (event : gmap string PyVal) (context : unit)
  : Py bool :=
  if bool_decide (event !! "bookingId" = None) then
    log ERROR "Invalid event received" ;;
    raise (ValueError "Invalid booking ID")
  else
    try_except
      (booking_id <- getitem event "bookingId" ;;
       log DEBUG "Cancelling booking" ;;
       ret_ <- cancel_booking booking_id ;;
       log DEBUG "Adding Booking Status annotation" ;;
       put_annotation "BookingStatus" "CANCELLED" ;;
       ret ret_)
      (fun e =>
         match e with
         | BookingCancellationExn err =>
             Some (log DEBUG
                     "Adding Booking Status annotation, and exception as metadata" ;;
                   put_annotation "BookingStatus" "ERROR" ;;
                   put_metadata (PStr "cancel_booking_error")
                                (MetaException err) ;;
                   raise (BookingCancellationExn
                            (BookingCancellationException_init
                               None None (Some (OfBookingCancellation err)))))
         | _ => None
         end).

(** ** Reading the table *)

(** The item a Python value addresses as booking identifier: only a string
    can be the key of an item. *)
Definition lookup_record (tbl : gmap string (gmap string PyVal)) (v : PyVal)
  : option (gmap string PyVal) :=
  match v with
  | PStr k => tbl !! k
  | _ => None
  end.

(** The [status] attribute of the record stored under [id]. *)
Definition record_status (tbl : gmap string (gmap string PyVal)) (id : string)
  : option PyVal :=
  attrs ← tbl !! id; attrs !! "status".

(** The attributes of a record once cancelled. *)
Definition cancelled (attrs : gmap string PyVal) : gmap string PyVal :=
  <["status" := PStr "CANCELLED"]> attrs.

(** ** Reading the trace *)

(** The values of the BookingStatus annotations on a trace, oldest first. *)
Fixpoint booking_status_annotations (tr : list TraceEvent) : list string :=
  match tr with
  | [] => []
  | Annotation key value :: tr' =>
      if String.eqb key "BookingStatus"
      then value :: booking_status_annotations tr'
      else booking_status_annotations tr'
  | Metadata _ _ :: tr' => booking_status_annotations tr'
  end.

(** The BookingStatus annotation that goes with an outcome of
    [lambda_handler]. *)
Definition status_of_outcome (o : Outcome bool) : list string :=
  match o with
  | Returned _ => ["CANCELLED"]
  | Raised (BookingCancellationExn _) => ["ERROR"]
  | Raised _ => []
  end.

(** ** Worlds used in the examples *)

(** One confirmed booking, a service that answers every request. *)
Definition booked : World :=
  mkWorld {[ "abc123" := {[ "status" := PStr "CONFIRMED" ]} ]} [] [] [] [].

(** The same booking, a service that throttles the next request. *)
Definition throttled : World :=
  mkWorld {[ "abc123" := {[ "status" := PStr "CONFIRMED" ]} ]}
          [Some ProvisionedThroughputExceededException] [] [] [].

(** The same booking, a service that answers the next request and throttles
    the one after. *)
Definition throttled_later : World :=
  mkWorld {[ "abc123" := {[ "status" := PStr "CONFIRMED" ]} ]}
          [None; Some ProvisionedThroughputExceededException] [] [] [].

(** * Properties *)

(** ** The conditional update on the table *)

Section StoreFacts.
Variable tbl : gmap string (gmap string PyVal).

Lemma request_key_cancel (v : PyVal) :
  request_key (cancel_request v) = match v with PStr k => Some k | _ => None end.
Proof. destruct v; reflexivity. Qed.

(** The record exists: the condition holds whatever the record's current
    attributes, and only its [status] is overwritten. *)
Lemma dynamodb_cancel_existing (id : string) (attrs : gmap string PyVal) :
  tbl !! id = Some attrs ->
  dynamodb_update_item tbl (cancel_request (PStr id)) =
    inr (<[id := cancelled attrs]> tbl,
         mkUpdateItemResponse {["status" := PStr "CANCELLED"]}).
Proof.
  intros Hid. unfold dynamodb_update_item, eval_condition. cbn.
  rewrite Hid. cbn. rewrite String.eqb_refl. reflexivity.
Qed.

(** No record under that key: the condition fails. *)
Lemma dynamodb_cancel_missing (id : string) :
  tbl !! id = None ->
  dynamodb_update_item tbl (cancel_request (PStr id)) =
    inl ConditionalCheckFailedException.
Proof.
  intros Hid. unfold dynamodb_update_item, eval_condition. cbn.
  rewrite Hid. reflexivity.
Qed.

(** A value that is not a string is no key of the table. *)
Lemma dynamodb_cancel_not_a_key (v : PyVal) :
  (forall k, v <> PStr k) ->
  dynamodb_update_item tbl (cancel_request v) = inl ValidationException.
Proof.
  intros Hv. unfold dynamodb_update_item. rewrite request_key_cancel.
  destruct v; try reflexivity. now destruct (Hv s).
Qed.

(** Whatever the identifier, a request that addresses no record is
    rejected. *)
Lemma dynamodb_cancel_no_record (v : PyVal) :
  lookup_record tbl v = None ->
  exists err, dynamodb_update_item tbl (cancel_request v) = inl err.
Proof.
  intros Hv. destruct v as [| | |k| |];
    try (exists ValidationException; apply dynamodb_cancel_not_a_key;
         intros k; discriminate).
  exists ConditionalCheckFailedException. now apply dynamodb_cancel_missing.
Qed.

(** A request that is processed changes the table only when it addresses an
    existing record. *)
Lemma dynamodb_cancel_accepted (v : PyVal) tbl' resp :
  dynamodb_update_item tbl (cancel_request v) = inr (tbl', resp) ->
  exists id attrs,
    v = PStr id /\ tbl !! id = Some attrs /\
    tbl' = <[id := cancelled attrs]> tbl /\
    resp = mkUpdateItemResponse {["status" := PStr "CANCELLED"]}.
Proof.
  intros Hrun. destruct (lookup_record tbl v) as [attrs|] eqn:Hv.
  - destruct v as [| | |id| |]; try discriminate. cbn in Hv.
    rewrite (dynamodb_cancel_existing id attrs Hv) in Hrun.
    exists id, attrs. now inversion Hrun.
  - destruct (dynamodb_cancel_no_record v Hv) as [err Herr]. congruence.
Qed.
End StoreFacts.

(** ** What a run of each function is *)

(** The answer of the service does not depend on the trace or on the logs. *)
Lemma service_answer_frame (w : World) tr lg req :
  service_answer (mkWorld (table w) (pending w) (calls w) tr lg) req =
  service_answer w req.
Proof. reflexivity. Qed.

(** A run of [cancel_booking], by the service's answer. *)
Lemma cancel_booking_run (v : PyVal) (w : World) :
  cancel_booking v w =
  match service_answer w (cancel_request v) with
  | inl err =>
      (Raised (BookingCancellationExn
                 (mkBookingCancellationException
                    "Booking cancellation failed" 500 (OfClientError err))),
       mkWorld (table w) (tail (pending w)) (calls w ++ [cancel_request v])
               (trace w)
               ((logs w ++ [(DEBUG, "cancel_booking")])
                  ++ [(DEBUG, "cancel_booking")]))
  | inr (tbl', resp) =>
      (Returned true,
       mkWorld tbl' (tail (pending w)) (calls w ++ [cancel_request v])
               (trace w ++ [Metadata v (MetaResponse resp)])
               (((logs w ++ [(DEBUG, "cancel_booking")])
                   ++ [(INFO, "cancel_booking")])
                  ++ [(DEBUG, "Adding update item operation result as tracing metadata")]))
  end.
Proof.
  unfold cancel_booking, try_except, bind, update_item, log. cbn.
  rewrite service_answer_frame.
  destruct (service_answer w (cancel_request v)) as [err|[tbl' resp]];
    reflexivity.
Qed.

(** A run of [lambda_handler] on an event without [bookingId]. *)
Lemma lambda_handler_run_invalid (event : gmap string PyVal) ctx (w : World) :
  event !! "bookingId" = None ->
  lambda_handler event ctx w =
    (Raised (ValueError "Invalid booking ID"),
     mkWorld (table w) (pending w) (calls w) (trace w)
             (logs w ++ [(ERROR, "Invalid event received")])).
Proof.
  intros Hev. unfold lambda_handler. rewrite bool_decide_eq_true_2 by exact Hev.
  reflexivity.
Qed.

(** A run of [lambda_handler] on an event with a [bookingId], by the outcome
    of the inner [cancel_booking]. *)
Lemma lambda_handler_run (event : gmap string PyVal) ctx (w : World) (v : PyVal) :
  event !! "bookingId" = Some v ->
  lambda_handler event ctx w =
  let w0 := final (log DEBUG "Cancelling booking") w in
  match cancel_booking v w0 with
  | (Returned b, w1) =>
      (Returned b,
       mkWorld (table w1) (pending w1) (calls w1)
               (trace w1 ++ [Annotation "BookingStatus" "CANCELLED"])
               (logs w1 ++ [(DEBUG, "Adding Booking Status annotation")]))
  | (Raised (BookingCancellationExn err), w1) =>
      (Raised (BookingCancellationExn
                 (mkBookingCancellationException
                    "Booking cancellation failed" 500
                    (OfBookingCancellation err))),
       mkWorld (table w1) (pending w1) (calls w1)
               ((trace w1 ++ [Annotation "BookingStatus" "ERROR"])
                  ++ [Metadata (PStr "cancel_booking_error") (MetaException err)])
               (logs w1 ++ [(DEBUG, "Adding Booking Status annotation, and exception as metadata")]))
  | (Raised e, w1) => (Raised e, w1)
  end.
Proof.
  intros Hev. unfold lambda_handler.
  rewrite bool_decide_eq_false_2 by (rewrite Hev; discriminate).
  unfold try_except, bind, getitem. rewrite Hev. cbn.
  destruct (cancel_booking v _) as [[b|e] w1]; [reflexivity|].
  destruct e; reflexivity.
Qed.

(** A run of [lambda_handler] on an event with a [bookingId], by the
    service's answer. *)
Lemma lambda_handler_by_answer (event : gmap string PyVal) ctx (w : World)
    (v : PyVal) :
  event !! "bookingId" = Some v ->
  lambda_handler event ctx w =
  match service_answer w (cancel_request v) with
  | inl err =>
      (Raised (BookingCancellationExn
                 (mkBookingCancellationException
                    "Booking cancellation failed" 500
                    (OfBookingCancellation
                       (mkBookingCancellationException
                          "Booking cancellation failed" 500
                          (OfClientError err))))),
       mkWorld (table w) (tail (pending w)) (calls w ++ [cancel_request v])
               ((trace w ++ [Annotation "BookingStatus" "ERROR"])
                  ++ [Metadata (PStr "cancel_booking_error")
                        (MetaException
                           (mkBookingCancellationException
                              "Booking cancellation failed" 500
                              (OfClientError err)))])
               ((((logs w ++ [(DEBUG, "Cancelling booking")])
                    ++ [(DEBUG, "cancel_booking")])
                   ++ [(DEBUG, "cancel_booking")])
                  ++ [(DEBUG, "Adding Booking Status annotation, and exception as metadata")]))
  | inr (tbl', resp) =>
      (Returned true,
       mkWorld tbl' (tail (pending w)) (calls w ++ [cancel_request v])
               ((trace w ++ [Metadata v (MetaResponse resp)])
                  ++ [Annotation "BookingStatus" "CANCELLED"])
               (((((logs w ++ [(DEBUG, "Cancelling booking")])
                     ++ [(DEBUG, "cancel_booking")])
                    ++ [(INFO, "cancel_booking")])
                   ++ [(DEBUG, "Adding update item operation result as tracing metadata")])
                  ++ [(DEBUG, "Adding Booking Status annotation")]))
  end.
Proof.
  intros Hev. rewrite (lambda_handler_run event ctx w v Hev). cbn zeta.
  rewrite cancel_booking_run. unfold final, log. cbn [snd].
  rewrite service_answer_frame.
  destruct (service_answer w (cancel_request v)) as [err|[tbl' resp]];
    reflexivity.
Qed.

(** The outcome of [cancel_booking], and the table it leaves, when the
    service lets the request through and the record exists. *)
Lemma cancel_booking_accepts (w : World) (id : string)
    (attrs : gmap string PyVal) :
  table w !! id = Some attrs ->
  next_fault w = None ->
  result (cancel_booking (PStr id)) w = Returned true /\
  table (final (cancel_booking (PStr id)) w) = <[id := cancelled attrs]> (table w).
Proof.
  intros Hid Hfault. unfold result, final. rewrite cancel_booking_run.
  unfold service_answer. rewrite Hfault.
  rewrite (dynamodb_cancel_existing _ id attrs Hid). split; reflexivity.
Qed.

Lemma record_status_cancelled (tbl : gmap string (gmap string PyVal))
    (id : string) (attrs : gmap string PyVal) :
  record_status (<[id := cancelled attrs]> tbl) id = Some (PStr "CANCELLED").
Proof.
  unfold record_status, cancelled. rewrite lookup_insert_eq. cbn.
  apply lookup_insert_eq.
Qed.

(** ** Successful cancellation *)

(** C1, as stated, fails: a record with the identifier exists, yet the
    service rejects the request (here it throttles it), [cancel_booking]
    raises instead of returning [True] and the record keeps its status. *)
Lemma cancel_existing_throttled :
  table throttled !! "abc123" = Some {[ "status" := PStr "CONFIRMED" ]} /\
  result (cancel_booking (PStr "abc123")) throttled =
    Raised (BookingCancellationExn
              (mkBookingCancellationException
                 "Booking cancellation failed" 500
                 (OfClientError ProvisionedThroughputExceededException))) /\
  record_status (table (final (cancel_booking (PStr "abc123")) throttled))
                "abc123" = Some (PStr "CONFIRMED").
Proof. repeat split; vm_compute; reflexivity. Qed.

(** C1, amended: when a record with the identifier exists and the service
    does not reject the request for a reason of its own, [cancel_booking]
    returns [True] and the record's status is CANCELLED (its other attributes
    and the other records are as before); on an event carrying that
    identifier [lambda_handler] returns [True] and leaves the record with
    status CANCELLED. *)
Theorem cancel_existing_record (w : World) (id : string)
    (attrs : gmap string PyVal) (event : gmap string PyVal) (ctx : unit) :
  table w !! id = Some attrs ->
  next_fault w = None ->
  event !! "bookingId" = Some (PStr id) ->
  (result (cancel_booking (PStr id)) w = Returned true /\
   table (final (cancel_booking (PStr id)) w) = <[id := cancelled attrs]> (table w) /\
   record_status (table (final (cancel_booking (PStr id)) w)) id
     = Some (PStr "CANCELLED")) /\
  (result (lambda_handler event ctx) w = Returned true /\
   table (final (lambda_handler event ctx) w) = <[id := cancelled attrs]> (table w) /\
   record_status (table (final (lambda_handler event ctx) w)) id
     = Some (PStr "CANCELLED")).
Proof.
  intros Hid Hfault Hev. split.
  - destruct (cancel_booking_accepts w id attrs Hid Hfault) as [Hres Htbl].
    rewrite Htbl. auto using record_status_cancelled.
  - unfold result, final. rewrite (lambda_handler_by_answer event ctx w _ Hev).
    unfold service_answer. rewrite Hfault.
    rewrite (dynamodb_cancel_existing _ id attrs Hid). cbn.
    auto using record_status_cancelled.
Qed.

Lemma cancel_existing_record_witness :
  (table booked !! "abc123" = Some {[ "status" := PStr "CONFIRMED" ]} /\
   next_fault booked = None /\
   ({[ "bookingId" := PStr "abc123" ]} : gmap string PyVal) !! "bookingId"
     = Some (PStr "abc123")) /\
  result (lambda_handler {[ "bookingId" := PStr "abc123" ]} tt) booked
    = Returned true /\
  record_status
    (table (final (lambda_handler {[ "bookingId" := PStr "abc123" ]} tt) booked))
    "abc123" = Some (PStr "CANCELLED").
Proof.
  assert (H1 : table booked !! "abc123"
               = Some ({[ "status" := PStr "CONFIRMED" ]} : gmap string PyVal))
    by (vm_compute; reflexivity).
  assert (H2 : next_fault booked = None) by reflexivity.
  assert (H3 : ({[ "bookingId" := PStr "abc123" ]} : gmap string PyVal)
                 !! "bookingId" = Some (PStr "abc123"))
    by (vm_compute; reflexivity).
  split; [auto|].
  destruct (cancel_existing_record booked "abc123" _ _ tt H1 H2 H3)
    as [_ [Hres [_ Hst]]].
  split; assumption.
Defined.

(** ** Input validation *)

(** C2: on an event without [bookingId], [lambda_handler] raises the
    [ValueError] "Invalid booking ID", which is not a
    [BookingCancellationException]; the table has received no call when it is
    raised, and neither its items nor the trace have changed. *)
Theorem missing_booking_id (event : gmap string PyVal) (ctx : unit) (w : World) :
  event !! "bookingId" = None ->
  result (lambda_handler event ctx) w = Raised (ValueError "Invalid booking ID") /\
  isinstance_ValueError (ValueError "Invalid booking ID") = true /\
  isinstance_BookingCancellationException (ValueError "Invalid booking ID") = false /\
  (forall err, ValueError "Invalid booking ID" <> BookingCancellationExn err) /\
  calls (final (lambda_handler event ctx) w) = calls w /\
  pending (final (lambda_handler event ctx) w) = pending w /\
  table (final (lambda_handler event ctx) w) = table w /\
  trace (final (lambda_handler event ctx) w) = trace w.
Proof.
  intros Hev. unfold result, final.
  rewrite (lambda_handler_run_invalid event ctx w Hev). cbn.
  repeat split. intros err. discriminate.
Qed.

Lemma missing_booking_id_witness :
  (∅ : gmap string PyVal) !! "bookingId" = None /\
  result (lambda_handler ∅ tt) booked = Raised (ValueError "Invalid booking ID") /\
  calls (final (lambda_handler ∅ tt) booked) = [].
Proof.
  assert (H : (∅ : gmap string PyVal) !! "bookingId" = None)
    by apply lookup_empty.
  destruct (missing_booking_id ∅ tt booked H) as (Hres & _ & _ & _ & Hcalls & _).
  repeat split; assumption.
Defined.

(** ** Cancellation of a booking that does not exist *)

(** C3: when no record with the identifier exists, [cancel_booking] raises a
    [BookingCancellationException] and the table is unchanged; in particular
    there is still no record with that identifier.  The identifier is a
    string, as the keys of the table are. *)
Theorem cancel_missing_record (w : World) (id : string) :
  table w !! id = None ->
  (exists err,
     result (cancel_booking (PStr id)) w = Raised (BookingCancellationExn err)) /\
  table (final (cancel_booking (PStr id)) w) = table w /\
  table (final (cancel_booking (PStr id)) w) !! id = None.
Proof.
  intros Hid. unfold result, final. rewrite cancel_booking_run.
  unfold service_answer. destruct (next_fault w) as [fault|].
  - cbn. eauto.
  - rewrite (dynamodb_cancel_missing (table w) id Hid). cbn. eauto.
Qed.

Lemma cancel_missing_record_witness :
  table booked !! "ghost" = None /\
  (exists err,
     result (cancel_booking (PStr "ghost")) booked
       = Raised (BookingCancellationExn err)) /\
  table (final (cancel_booking (PStr "ghost")) booked) = table booked.
Proof.
  assert (H : table booked !! "ghost" = None)
    by (vm_compute; reflexivity).
  destruct (cancel_missing_record booked "ghost" H) as (Hres & Htbl & _).
  repeat split; assumption.
Defined.

(** ** Failure of the inner call *)

(** [cancel_booking] fails exactly when the service rejects the request, and
    then with the translated error; it leaves the trace alone. *)
Lemma cancel_booking_raises (v : PyVal) (w : World)
    (inner : BookingCancellationException) :
  result (cancel_booking v) w = Raised (BookingCancellationExn inner) ->
  exists err,
    service_answer w (cancel_request v) = inl err /\
    inner = mkBookingCancellationException
              "Booking cancellation failed" 500 (OfClientError err).
Proof.
  unfold result. rewrite cancel_booking_run.
  destruct (service_answer w (cancel_request v)) as [err|[tbl' resp]]; cbn;
    intros Hres; [|discriminate].
  exists err. split; [reflexivity|]. now inversion Hres.
Qed.

(** The log record [lambda_handler] emits before the inner call does not
    change what that call does. *)
Lemma cancel_booking_after_log (v : PyVal) (w : World) level label :
  result (cancel_booking v) (final (log level label) w)
    = result (cancel_booking v) w.
Proof.
  unfold result. rewrite !cancel_booking_run. unfold final, log. cbn [snd].
  rewrite service_answer_frame.
  destruct (service_answer w (cancel_request v)) as [err|[tbl' resp]];
    reflexivity.
Qed.

(** C4, as stated, fails: the error [lambda_handler] raises does not carry
    the details of the error it caught.  Its [details] is the caught
    exception itself, which is another object than that exception's
    [details] (the store's error). *)
Lemma reraise_wraps_whole_error :
  result (cancel_booking (PStr "ghost"))
         (final (log DEBUG "Cancelling booking") booked)
    = Raised (BookingCancellationExn
                (mkBookingCancellationException
                   "Booking cancellation failed" 500
                   (OfClientError ConditionalCheckFailedException))) /\
  result (lambda_handler {[ "bookingId" := PStr "ghost" ]} tt) booked
    = Raised (BookingCancellationExn
                (mkBookingCancellationException
                   "Booking cancellation failed" 500
                   (OfBookingCancellation
                      (mkBookingCancellationException
                         "Booking cancellation failed" 500
                         (OfClientError ConditionalCheckFailedException))))) /\
  details (mkBookingCancellationException
             "Booking cancellation failed" 500
             (OfBookingCancellation
                (mkBookingCancellationException
                   "Booking cancellation failed" 500
                   (OfClientError ConditionalCheckFailedException))))
    <> details (mkBookingCancellationException
                  "Booking cancellation failed" 500
                  (OfClientError ConditionalCheckFailedException)).
Proof.
  split; [vm_compute; reflexivity|]. split; [vm_compute; reflexivity|].
  cbn [details]. discriminate.
Qed.

(** C4, amended: when the inner [cancel_booking] raises a
    [BookingCancellationException], [lambda_handler] puts the annotation
    BookingStatus = ERROR on the trace, attaches the caught exception as
    metadata under cancel_booking_error, and raises a new
    [BookingCancellationException] whose [details] is the caught exception
    itself, not that exception's [details]; the store's error stays inside
    the caught exception, one level down. *)
Theorem handler_reraises (event : gmap string PyVal) (ctx : unit) (w : World)
    (v : PyVal) (inner : BookingCancellationException) :
  event !! "bookingId" = Some v ->
  result (cancel_booking v) (final (log DEBUG "Cancelling booking") w)
    = Raised (BookingCancellationExn inner) ->
  result (lambda_handler event ctx) w
    = Raised (BookingCancellationExn
                (BookingCancellationException_init
                   None None (Some (OfBookingCancellation inner)))) /\
  details (BookingCancellationException_init
             None None (Some (OfBookingCancellation inner)))
    = OfBookingCancellation inner /\
  trace (final (lambda_handler event ctx) w)
    = trace (final (cancel_booking v) (final (log DEBUG "Cancelling booking") w))
        ++ [Annotation "BookingStatus" "ERROR";
            Metadata (PStr "cancel_booking_error") (MetaException inner)] /\
  trace (final (lambda_handler event ctx) w)
    = trace w
        ++ [Annotation "BookingStatus" "ERROR";
            Metadata (PStr "cancel_booking_error") (MetaException inner)] /\
  (exists err,
     service_answer w (cancel_request v) = inl err /\
     details inner = OfClientError err) /\
  details (BookingCancellationException_init
             None None (Some (OfBookingCancellation inner)))
    <> details inner.
Proof.
  intros Hev Hinner.
  assert (Hraise := Hinner). rewrite cancel_booking_after_log in Hraise.
  apply cancel_booking_raises in Hraise. destruct Hraise as (err & Hans & Hin).
  assert (Hrun := lambda_handler_run event ctx w v Hev). cbn zeta in Hrun.
  unfold result, final in *.
  destruct (cancel_booking v (snd (log DEBUG "Cancelling booking" w)))
    as [o w1] eqn:Hcb.
  cbn [fst] in Hinner. subst o. rewrite Hrun. cbn [fst snd trace].
  rewrite <- app_assoc. cbn [app].
  split; [reflexivity|]. split; [reflexivity|]. split; [reflexivity|]. split.
  - rewrite cancel_booking_run in Hcb. unfold log in Hcb. cbn [snd] in Hcb.
    rewrite service_answer_frame, Hans in Hcb. inversion Hcb. reflexivity.
  - split.
    + exists err. split; [exact Hans|]. rewrite Hin. reflexivity.
    + rewrite Hin. cbn [details]. discriminate.
Qed.

Lemma handler_reraises_witness :
  (({[ "bookingId" := PStr "ghost" ]} : gmap string PyVal) !! "bookingId"
     = Some (PStr "ghost") /\
   result (cancel_booking (PStr "ghost"))
          (final (log DEBUG "Cancelling booking") booked)
     = Raised (BookingCancellationExn
                 (mkBookingCancellationException
                    "Booking cancellation failed" 500
                    (OfClientError ConditionalCheckFailedException)))) /\
  trace (final (lambda_handler {[ "bookingId" := PStr "ghost" ]} tt) booked)
    = [Annotation "BookingStatus" "ERROR";
       Metadata (PStr "cancel_booking_error")
         (MetaException
            (mkBookingCancellationException
               "Booking cancellation failed" 500
               (OfClientError ConditionalCheckFailedException)))].
Proof.
  assert (H1 : ({[ "bookingId" := PStr "ghost" ]} : gmap string PyVal)
                 !! "bookingId" = Some (PStr "ghost"))
    by (vm_compute; reflexivity).
  assert (H2 : result (cancel_booking (PStr "ghost"))
                      (final (log DEBUG "Cancelling booking") booked)
               = Raised (BookingCancellationExn
                           (mkBookingCancellationException
                              "Booking cancellation failed" 500
                              (OfClientError ConditionalCheckFailedException))))
    by (vm_compute; reflexivity).
  split; [auto|].
  exact (proj1 (proj2 (proj2 (proj2
           (handler_reraises _ tt booked _ _ H1 H2))))).
Defined.

(** ** Translation of the store's error *)

(** The two ways the service rejects the request: a rejection of its own,
    whatever the table holds, and the failed condition on a missing
    record. *)
Lemma service_rejects_fault (w : World) (req : UpdateItemRequest)
    (err : ClientError) :
  next_fault w = Some err -> service_answer w req = inl err.
Proof. intros H. unfold service_answer. now rewrite H. Qed.

Lemma service_rejects_missing (w : World) (id : string) :
  next_fault w = None -> table w !! id = None ->
  service_answer w (cancel_request (PStr id))
    = inl ConditionalCheckFailedException.
Proof.
  intros H Hid. unfold service_answer. rewrite H.
  now apply dynamodb_cancel_missing.
Qed.

(** C5: whenever the service rejects the conditional update with an error
    [err], [cancel_booking] raises a [BookingCancellationException] with
    message "Booking cancellation failed", status code 500 and [err] as
    details. *)
Theorem store_rejection_translated (w : World) (booking_id : PyVal)
    (err : ClientError) :
  service_answer w (cancel_request booking_id) = inl err ->
  exists e,
    result (cancel_booking booking_id) w = Raised (BookingCancellationExn e) /\
    e = BookingCancellationException_init None None (Some (OfClientError err)) /\
    message e = "Booking cancellation failed" /\
    status_code e = 500 /\
    details e = OfClientError err.
Proof.
  intros Hans. unfold result. rewrite cancel_booking_run, Hans.
  eexists. split; [reflexivity|]. repeat split.
Qed.

Lemma store_rejection_translated_witness :
  (service_answer booked (cancel_request (PStr "ghost"))
     = inl ConditionalCheckFailedException /\
   service_answer throttled (cancel_request (PStr "abc123"))
     = inl ProvisionedThroughputExceededException) /\
  (exists e,
     result (cancel_booking (PStr "ghost")) booked
       = Raised (BookingCancellationExn e) /\
     details e = OfClientError ConditionalCheckFailedException) /\
  (exists e,
     result (cancel_booking (PStr "abc123")) throttled
       = Raised (BookingCancellationExn e) /\
     details e = OfClientError ProvisionedThroughputExceededException).
Proof.
  assert (H1 : service_answer booked (cancel_request (PStr "ghost"))
               = inl ConditionalCheckFailedException)
    by (apply service_rejects_missing; vm_compute; reflexivity).
  assert (H2 : service_answer throttled (cancel_request (PStr "abc123"))
               = inl ProvisionedThroughputExceededException)
    by (apply service_rejects_fault; reflexivity).
  split; [auto|]. split.
  - destruct (store_rejection_translated _ _ _ H1) as (e & Hres & _ & _ & _ & Hd).
    exists e. auto.
  - destruct (store_rejection_translated _ _ _ H2) as (e & Hres & _ & _ & _ & Hd).
    exists e. auto.
Defined.

(** ** The errors the caller of [lambda_handler] receives *)




(** ** Cancelling twice *)

(** C7, as stated, fails: the first [cancel_booking] returns [True] and
    leaves the record CANCELLED, yet the second one raises, because the
    service rejects the second request for a reason of its own. *)
Lemma second_cancel_throttled :
  result (cancel_booking (PStr "abc123")) throttled_later = Returned true /\
  record_status
    (table (final (cancel_booking (PStr "abc123")) throttled_later)) "abc123"
    = Some (PStr "CANCELLED") /\
  result (cancel_booking (PStr "abc123"))
         (final (cancel_booking (PStr "abc123")) throttled_later)
    = Raised (BookingCancellationExn
                (mkBookingCancellationException
                   "Booking cancellation failed" 500
                   (OfClientError ProvisionedThroughputExceededException))).
Proof. repeat split; vm_compute; reflexivity. Qed.

(** The condition of the update looks at the record's key only: on an
    existing record the request is accepted whatever its status. *)
Lemma condition_ignores_status (id : string) (attrs : gmap string PyVal) :
  eval_condition (cancel_request (PStr id)) id (Some attrs) = Some true.
Proof. unfold eval_condition. cbn. now rewrite String.eqb_refl. Qed.

(** C7, amended: after a [cancel_booking] that returned [True] the record
    exists with status CANCELLED, and a second [cancel_booking] on the same
    identifier returns [True] as well, leaving the table as it is, provided
    the service does not reject the second request for a reason of its own:
    the condition of the update tests the existence of the record, not its
    status. *)
Theorem cancel_twice (w : World) (id : string) :
  result (cancel_booking (PStr id)) w = Returned true ->
  next_fault (final (cancel_booking (PStr id)) w) = None ->
  record_status (table (final (cancel_booking (PStr id)) w)) id
    = Some (PStr "CANCELLED") /\
  result (cancel_booking (PStr id)) (final (cancel_booking (PStr id)) w)
    = Returned true /\
  table (final (cancel_booking (PStr id)) (final (cancel_booking (PStr id)) w))
    = table (final (cancel_booking (PStr id)) w) /\
  (forall attrs,
     eval_condition (cancel_request (PStr id)) id (Some attrs) = Some true).
Proof.
  intros Hfirst Hfault.
  assert (Hex : exists attrs,
             table (final (cancel_booking (PStr id)) w) !! id
               = Some (cancelled attrs)).
  { revert Hfirst. clear Hfault. unfold result, final.
    rewrite cancel_booking_run.
    destruct (service_answer w (cancel_request (PStr id)))
      as [err|[tbl' resp]] eqn:Hans; cbn; [discriminate|]. intros _.
    unfold service_answer in Hans. destruct (next_fault w); [discriminate|].
    destruct (dynamodb_cancel_accepted _ _ _ _ Hans)
      as (id' & attrs & Hid & _ & -> & _).
    inversion Hid; subst id'. exists attrs. apply lookup_insert_eq. }
  destruct Hex as [attrs Hattrs].
  destruct (cancel_booking_accepts _ id _ Hattrs Hfault) as [Hres Htbl].
  split; [|split; [|split]].
  - unfold record_status. rewrite Hattrs. cbn. apply lookup_insert_eq.
  - exact Hres.
  - rewrite Htbl. apply insert_id. rewrite Hattrs. f_equal.
    unfold cancelled. symmetry. apply insert_insert_eq.
  - intros attrs'. apply condition_ignores_status.
Qed.

Lemma cancel_twice_witness :
  (result (cancel_booking (PStr "abc123")) booked = Returned true /\
   next_fault (final (cancel_booking (PStr "abc123")) booked) = None) /\
  result (cancel_booking (PStr "abc123"))
         (final (cancel_booking (PStr "abc123")) booked)
    = Returned true.
Proof.
  assert (H1 : result (cancel_booking (PStr "abc123")) booked = Returned true)
    by (vm_compute; reflexivity).
  assert (H2 : next_fault (final (cancel_booking (PStr "abc123")) booked) = None)
    by (vm_compute; reflexivity).
  split; [auto|].
  exact (proj1 (proj2 (cancel_twice booked "abc123" H1 H2))).
Defined.

(** ** Calls to the table *)

(** C8: on an event with a [bookingId], a run of [lambda_handler] makes
    exactly one [update_item] call, the one [cancel_booking] builds, whether
    the call succeeds or fails; the service's pending answers are consumed by
    one. *)
Theorem one_store_call (event : gmap string PyVal) (ctx : unit) (w : World)
    (v : PyVal) :
  event !! "bookingId" = Some v ->
  calls (final (lambda_handler event ctx) w) = calls w ++ [cancel_request v] /\
  (length (calls (final (lambda_handler event ctx) w))
     = S (length (calls w)))%nat /\
  pending (final (lambda_handler event ctx) w) = tail (pending w).
Proof.
  intros Hev. unfold final. rewrite (lambda_handler_by_answer event ctx w v Hev).
  destruct (service_answer w (cancel_request v)) as [err|[tbl' resp]]; cbn;
    rewrite length_app; cbn; repeat split; lia.
Qed.

Lemma one_store_call_witness :
  ({[ "bookingId" := PStr "abc123" ]} : gmap string PyVal) !! "bookingId"
    = Some (PStr "abc123") /\
  calls (final (lambda_handler {[ "bookingId" := PStr "abc123" ]} tt) throttled)
    = [cancel_request (PStr "abc123")] /\
  calls (final (lambda_handler {[ "bookingId" := PStr "abc123" ]} tt) booked)
    = [cancel_request (PStr "abc123")].
Proof.
  assert (H : ({[ "bookingId" := PStr "abc123" ]} : gmap string PyVal)
                !! "bookingId" = Some (PStr "abc123"))
    by (vm_compute; reflexivity).
  split; [exact H|]. split.
  - exact (proj1 (one_store_call _ tt throttled _ H)).
  - exact (proj1 (one_store_call _ tt booked _ H)).
Defined.

(** ** The error [lambda_handler] re-raises *)

(** A [BookingCancellationException] leaves [lambda_handler] only after the
    service rejected the request, and then with the default message and
    status code. *)
Lemma reraised_only_on_rejection (event : gmap string PyVal) (ctx : unit)
    (w : World) (outer : BookingCancellationException) :
  result (lambda_handler event ctx) w = Raised (BookingCancellationExn outer) ->
  exists v err,
    event !! "bookingId" = Some v /\
    service_answer w (cancel_request v) = inl err /\
    outer = mkBookingCancellationException
              "Booking cancellation failed" 500
              (OfBookingCancellation
                 (mkBookingCancellationException
                    "Booking cancellation failed" 500 (OfClientError err))).
Proof.
  intros Hres. unfold result in Hres.
  destruct (event !! "bookingId") as [v|] eqn:Hev.
  - rewrite (lambda_handler_by_answer event ctx w v Hev) in Hres.
    destruct (service_answer w (cancel_request v)) as [err|[tbl' resp]] eqn:Hans;
      cbn in Hres; [|discriminate].
    exists v, err. split; [reflexivity|]. split; [exact Hans|].
    now inversion Hres.
  - rewrite (lambda_handler_run_invalid event ctx w Hev) in Hres. discriminate.
Qed.

(** C9: for every failing store call, the [BookingCancellationException]
    that [lambda_handler] raises has the default message and the default
    status code 500, and its [details] is the whole exception raised by the
    inner [cancel_booking], whose own [details] is the store's error: it is
    not that inner payload. *)
Theorem reraised_error_shape (event : gmap string PyVal) (ctx : unit)
    (w : World) (v : PyVal) (err : ClientError) :
  event !! "bookingId" = Some v ->
  service_answer w (cancel_request v) = inl err ->
  exists outer inner,
    result (lambda_handler event ctx) w = Raised (BookingCancellationExn outer) /\
    result (cancel_booking v) (final (log DEBUG "Cancelling booking") w)
      = Raised (BookingCancellationExn inner) /\
    message outer = "Booking cancellation failed" /\
    status_code outer = 500 /\
    details outer = OfBookingCancellation inner /\
    details inner = OfClientError err /\
    details outer <> details inner /\
    details outer <> OfClientError err.
Proof.
  intros Hev Hans.
  exists (mkBookingCancellationException
            "Booking cancellation failed" 500
            (OfBookingCancellation
               (mkBookingCancellationException
                  "Booking cancellation failed" 500 (OfClientError err)))),
         (mkBookingCancellationException
            "Booking cancellation failed" 500 (OfClientError err)).
  split.
  { unfold result. rewrite (lambda_handler_by_answer event ctx w v Hev), Hans.
    reflexivity. }
  split.
  { rewrite cancel_booking_after_log. unfold result.
    rewrite cancel_booking_run, Hans. reflexivity. }
  cbn [message status_code details].
  repeat (split; [reflexivity|]). split; discriminate.
Qed.

Lemma reraised_error_shape_witness :
  (({[ "bookingId" := PStr "abc123" ]} : gmap string PyVal) !! "bookingId"
     = Some (PStr "abc123") /\
   service_answer throttled (cancel_request (PStr "abc123"))
     = inl ProvisionedThroughputExceededException) /\
  exists outer inner,
    result (lambda_handler {[ "bookingId" := PStr "abc123" ]} tt) throttled
      = Raised (BookingCancellationExn outer) /\
    status_code outer = 500 /\
    details outer = OfBookingCancellation inner /\
    details inner = OfClientError ProvisionedThroughputExceededException.
Proof.
  assert (H1 : ({[ "bookingId" := PStr "abc123" ]} : gmap string PyVal)
                 !! "bookingId" = Some (PStr "abc123"))
    by (vm_compute; reflexivity).
  assert (H2 : service_answer throttled (cancel_request (PStr "abc123"))
               = inl ProvisionedThroughputExceededException)
    by reflexivity.
  split; [auto|].
  destruct (reraised_error_shape _ tt throttled _ _ H1 H2)
    as (outer & inner & Hres & _ & _ & Hcode & Hout & Hin & _).
  exists outer, inner. auto.
Defined.

(** ** What the validation looks at *)

(** C10: the validation only tests that the key [bookingId] is present.
    Whatever value the event holds under it (an empty string, a number, None,
    a list), [lambda_handler] does not raise the [ValueError] of an invalid
    event: it makes the [update_item] call, with that value as [Key] and as
    [:idVal]. *)
Theorem any_booking_id_reaches_store (event : gmap string PyVal) (ctx : unit)
    (w : World) (v : PyVal) :
  event !! "bookingId" = Some v ->
  calls (final (lambda_handler event ctx) w) = calls w ++ [cancel_request v] /\
  Key (cancel_request v) = [("id", v)] /\
  assoc (ExpressionAttributeValues (cancel_request v)) ":idVal" = Some v /\
  (forall msg, result (lambda_handler event ctx) w <> Raised (ValueError msg)).
Proof.
  intros Hev. unfold final, result.
  rewrite (lambda_handler_by_answer event ctx w v Hev).
  destruct (service_answer w (cancel_request v)) as [err|[tbl' resp]]; cbn;
    repeat split; intros msg; discriminate.
Qed.

Lemma any_booking_id_reaches_store_witness :
  ({[ "bookingId" := PStr EmptyString ]} : gmap string PyVal) !! "bookingId"
    = Some (PStr EmptyString) /\
  calls (final (lambda_handler {[ "bookingId" := PStr EmptyString ]} tt) booked)
    = [cancel_request (PStr EmptyString)] /\
  calls (final (lambda_handler {[ "bookingId" := PNone ]} tt) booked)
    = [cancel_request PNone].
Proof.
  assert (H1 : ({[ "bookingId" := PStr EmptyString ]} : gmap string PyVal)
                 !! "bookingId" = Some (PStr EmptyString))
    by (vm_compute; reflexivity).
  assert (H2 : ({[ "bookingId" := PNone ]} : gmap string PyVal)
                 !! "bookingId" = Some PNone)
    by (vm_compute; reflexivity).
  split; [exact H1|]. split.
  - exact (proj1 (any_booking_id_reaches_store _ tt booked _ H1)).
  - exact (proj1 (any_booking_id_reaches_store _ tt booked _ H2)).
Defined.

(** * Further properties of the module *)

(** ** The constructor of the exception *)

(** X1: [__init__] (lines 22-28): whatever the arguments, the exception built
    has a non-empty message and a non-zero status code, because [or] replaces
    a falsy argument (an empty message, a status code of 0) by the default as
    it does a missing one; a non-empty message and a non-zero status code are
    kept as given.  An exception object passed as [details] is kept, and
    missing [details] become the empty dict. *)
Theorem init_fields_never_falsy (m : option string) (c : option Z)
    (d : option Payload) :
  message (BookingCancellationException_init m c d) <> EmptyString /\
  status_code (BookingCancellationException_init m c d) <> 0 /\
  (forall s, m = Some s -> s <> EmptyString ->
             message (BookingCancellationException_init m c d) = s) /\
  (forall z, c = Some z -> z <> 0 ->
             status_code (BookingCancellationException_init m c d) = z) /\
  (forall err, d = Some (OfClientError err) ->
               details (BookingCancellationException_init m c d)
                 = OfClientError err) /\
  (forall e, d = Some (OfBookingCancellation e) ->
             details (BookingCancellationException_init m c d)
               = OfBookingCancellation e) /\
  (d = None ->
   details (BookingCancellationException_init m c d) = EmptyDict) /\
  (m = Some EmptyString ->
   message (BookingCancellationException_init m c d)
     = "Booking cancellation failed") /\
  (c = Some 0 -> status_code (BookingCancellationException_init m c d) = 500).
Proof.
  unfold BookingCancellationException_init, py_or, truthy_str, truthy_int.
  cbn [message status_code details].
  split; [|split; [|split; [|split; [|split; [|split; [|split; [|split]]]]]]].
  - destruct m as [s|]; [|discriminate].
    destruct (String.eqb_spec s EmptyString); cbn; [discriminate|assumption].
  - destruct c as [z|]; [|discriminate].
    destruct (Z.eqb_spec z 0); cbn; [discriminate|assumption].
  - intros s -> Hs. destruct (String.eqb_spec s EmptyString); cbn; congruence.
  - intros z -> Hz. destruct (Z.eqb_spec z 0); cbn; congruence.
  - intros err ->. reflexivity.
  - intros e ->. reflexivity.
  - intros ->. reflexivity.
  - intros ->. reflexivity.
  - intros ->. reflexivity.
Qed.

(** ** When the cancellation succeeds *)

(** A request that the service answers with a response: no rejection was
    pending and the identifier is the key of a record, which is the only
    thing rewritten. *)
Lemma service_answer_accepted (w : World) (v : PyVal) tbl' resp :
  service_answer w (cancel_request v) = inr (tbl', resp) ->
  next_fault w = None /\
  exists id attrs,
    v = PStr id /\ table w !! id = Some attrs /\
    tbl' = <[id := cancelled attrs]> (table w) /\
    resp = mkUpdateItemResponse {["status" := PStr "CANCELLED"]}.
Proof.
  unfold service_answer. destruct (next_fault w); [discriminate|].
  intros Hans. split; [reflexivity|].
  exact (dynamodb_cancel_accepted _ _ _ _ Hans).
Qed.

(** The table [lambda_handler] leaves. *)
Lemma lambda_handler_table (event : gmap string PyVal) ctx (w : World) :
  table (final (lambda_handler event ctx) w) =
  match event !! "bookingId" with
  | Some v =>
      match service_answer w (cancel_request v) with
      | inr (tbl', _) => tbl'
      | inl _ => table w
      end
  | None => table w
  end.
Proof.
  unfold final. destruct (event !! "bookingId") as [v|] eqn:Hev.
  - rewrite (lambda_handler_by_answer event ctx w v Hev).
    now destruct (service_answer w (cancel_request v)) as [err|[tbl' resp]].
  - now rewrite (lambda_handler_run_invalid event ctx w Hev).
Qed.

(** The outcome of [lambda_handler] on an event with a [bookingId]. *)
Lemma lambda_handler_result (event : gmap string PyVal) ctx (w : World)
    (v : PyVal) :
  event !! "bookingId" = Some v ->
  result (lambda_handler event ctx) w =
  match service_answer w (cancel_request v) with
  | inr _ => Returned true
  | inl err =>
      Raised (BookingCancellationExn
                (mkBookingCancellationException
                   "Booking cancellation failed" 500
                   (OfBookingCancellation
                      (mkBookingCancellationException
                         "Booking cancellation failed" 500
                         (OfClientError err)))))
  end.
Proof.
  intros Hev. unfold result. rewrite (lambda_handler_by_answer event ctx w v Hev).
  now destruct (service_answer w (cancel_request v)) as [err|[tbl' resp]].
Qed.

(** X2: [cancel_booking] returns [True] exactly when the identifier is the
    key of an existing record and the service does not reject the request;
    in every other case it raises. *)
Theorem cancel_booking_succeeds_iff (booking_id : PyVal) (w : World) :
  result (cancel_booking booking_id) w = Returned true <->
  next_fault w = None /\ is_Some (lookup_record (table w) booking_id).
Proof.
  unfold result. rewrite cancel_booking_run.
  destruct (service_answer w (cancel_request booking_id))
    as [err|[tbl' resp]] eqn:Hans; cbn [fst].
  - split; [discriminate|]. intros [Hfault [attrs Hrec]]. exfalso.
    destruct booking_id as [| | |id| |]; try discriminate. cbn in Hrec.
    unfold service_answer in Hans. rewrite Hfault in Hans.
    rewrite (dynamodb_cancel_existing _ id attrs Hrec) in Hans. discriminate.
  - split; [|reflexivity]. intros _.
    destruct (service_answer_accepted _ _ _ _ Hans)
      as (Hfault & id & attrs & -> & Hrec & _).
    split; [exact Hfault|]. cbn. eauto.
Qed.

(** ** What a run leaves in the table *)



(** X4: no run of [lambda_handler] creates or deletes a record: the set of
    identifiers in the table is the same after as before, for every event
    and every answer of the service. *)
Theorem handler_keeps_record_ids (event : gmap string PyVal) (ctx : unit)
    (w : World) :
  dom (table (final (lambda_handler event ctx) w)) = dom (table w).
Proof.
  rewrite lambda_handler_table.
  destruct (event !! "bookingId") as [v|]; [|reflexivity].
  destruct (service_answer w (cancel_request v)) as [err|[tbl' resp]] eqn:Hans;
    [reflexivity|].
  destruct (service_answer_accepted _ _ _ _ Hans)
    as (_ & id & attrs & _ & Hrec & -> & _).
  rewrite dom_insert_L. apply elem_of_dom_2 in Hrec.
  apply subseteq_union_1_L, singleton_subseteq_l. exact Hrec.
Qed.

(** X5: a run of [lambda_handler] does not touch the records other than the
    one the event names. *)
Theorem handler_leaves_other_records (event : gmap string PyVal) (ctx : unit)
    (w : World) (other : string) :
  event !! "bookingId" <> Some (PStr other) ->
  table (final (lambda_handler event ctx) w) !! other = table w !! other.
Proof.
  intros Hother. rewrite lambda_handler_table.
  destruct (event !! "bookingId") as [v|]; [|reflexivity].
  destruct (service_answer w (cancel_request v)) as [err|[tbl' resp]] eqn:Hans;
    [reflexivity|].
  destruct (service_answer_accepted _ _ _ _ Hans)
    as (_ & id & attrs & -> & _ & -> & _).
  apply lookup_insert_ne. congruence.
Qed.

Lemma handler_leaves_other_records_witness :
  ({[ "bookingId" := PStr "zzz999" ]} : gmap string PyVal) !! "bookingId"
    <> Some (PStr "abc123") /\
  table (final (lambda_handler {[ "bookingId" := PStr "zzz999" ]} tt) booked)
    !! "abc123" = table booked !! "abc123".
Proof.
  assert (H : ({[ "bookingId" := PStr "zzz999" ]} : gmap string PyVal)
                !! "bookingId" <> Some (PStr "abc123"))
    by (vm_compute; intros Heq; discriminate Heq).
  split; [exact H|].
  exact (handler_leaves_other_records _ tt booked "abc123" H).
Defined.

(** X6: of the record the event names, a run of [lambda_handler] changes the
    [status] attribute at most: every other attribute keeps its value (or
    its absence), and [status] is afterwards the old one or CANCELLED. *)
Theorem handler_changes_status_only (event : gmap string PyVal) (ctx : unit)
    (w : World) (id : string) (attrs : gmap string PyVal) :
  table w !! id = Some attrs ->
  exists attrs',
    table (final (lambda_handler event ctx) w) !! id = Some attrs' /\
    (forall name, name <> "status" -> attrs' !! name = attrs !! name) /\
    (attrs' !! "status" = attrs !! "status" \/
     attrs' !! "status" = Some (PStr "CANCELLED")).
Proof.
  intros Hrec. rewrite lambda_handler_table.
  assert (Hsame : exists attrs',
             table w !! id = Some attrs' /\
             (forall name, name <> "status" -> attrs' !! name = attrs !! name) /\
             (attrs' !! "status" = attrs !! "status" \/
              attrs' !! "status" = Some (PStr "CANCELLED")))
    by (exists attrs; auto).
  destruct (event !! "bookingId") as [v|]; [|exact Hsame].
  destruct (service_answer w (cancel_request v)) as [err|[tbl' resp]] eqn:Hans;
    [exact Hsame|].
  destruct (service_answer_accepted _ _ _ _ Hans)
    as (_ & id' & attrs0 & _ & Hrec' & -> & _).
  destruct (decide (id' = id)) as [->|Hne].
  - rewrite Hrec in Hrec'. inversion Hrec'; subst attrs0.
    exists (cancelled attrs). rewrite lookup_insert_eq. split; [reflexivity|].
    unfold cancelled. split.
    + intros name Hname. apply lookup_insert_ne. congruence.
    + right. apply lookup_insert_eq.
  - rewrite lookup_insert_ne by exact Hne. exact Hsame.
Qed.

Lemma handler_changes_status_only_witness :
  table booked !! "abc123" = Some {[ "status" := PStr "CONFIRMED" ]} /\
  exists attrs',
    table (final (lambda_handler {[ "bookingId" := PStr "abc123" ]} tt) booked)
      !! "abc123" = Some attrs' /\
    attrs' !! "customer" = ({[ "status" := PStr "CONFIRMED" ]} : gmap string PyVal)
                             !! "customer".
Proof.
  assert (H : table booked !! "abc123"
              = Some ({[ "status" := PStr "CONFIRMED" ]} : gmap string PyVal))
    by (vm_compute; reflexivity).
  split; [exact H|].
  destruct (handler_changes_status_only
              {[ "bookingId" := PStr "abc123" ]} tt booked "abc123" _ H)
    as (attrs' & Hrec & Hother & _).
  exists attrs'. split; [exact Hrec|]. apply Hother. discriminate.
Defined.

(** ** What a return value guarantees *)

(** X7: [lambda_handler] never returns [False].  When it returns, the value
    is [True], the event's [bookingId] is the key of a record that existed
    before the run, and that record has status CANCELLED after it. *)
Theorem handler_return_means_cancelled (event : gmap string PyVal) (ctx : unit)
    (w : World) (b : bool) :
  result (lambda_handler event ctx) w = Returned b ->
  b = true /\
  exists id attrs,
    event !! "bookingId" = Some (PStr id) /\
    table w !! id = Some attrs /\
    table (final (lambda_handler event ctx) w) !! id = Some (cancelled attrs) /\
    record_status (table (final (lambda_handler event ctx) w)) id
      = Some (PStr "CANCELLED").
Proof.
  intros Hres. destruct (event !! "bookingId") as [v|] eqn:Hev.
  - rewrite lambda_handler_table, Hev.
    rewrite (lambda_handler_result event ctx w v Hev) in Hres.
    destruct (service_answer w (cancel_request v)) as [err|[tbl' resp]] eqn:Hans;
      [discriminate|].
    destruct (service_answer_accepted _ _ _ _ Hans)
      as (_ & id & attrs & -> & Hrec & -> & _).
    split; [congruence|]. exists id, attrs.
    split; [reflexivity|]. split; [exact Hrec|].
    split; [apply lookup_insert_eq|apply record_status_cancelled].
  - unfold result in Hres.
    rewrite (lambda_handler_run_invalid event ctx w Hev) in Hres. discriminate.
Qed.

Lemma handler_return_means_cancelled_witness :
  result (lambda_handler {[ "bookingId" := PStr "abc123" ]} tt) booked
    = Returned true /\
  exists id attrs,
    ({[ "bookingId" := PStr "abc123" ]} : gmap string PyVal) !! "bookingId"
      = Some (PStr id) /\
    table booked !! id = Some attrs.
Proof.
  assert (H : result (lambda_handler {[ "bookingId" := PStr "abc123" ]} tt) booked
              = Returned true)
    by (vm_compute; reflexivity).
  split; [exact H|].
  destruct (handler_return_means_cancelled _ tt booked _ H)
    as (_ & id & attrs & Hev & Hrec & _).
  exists id, attrs. auto.
Defined.

(** ** What a run puts on the trace *)

(** X8: a run of [lambda_handler] that returns has put two things on the
    trace, in this order: the response of [update_item], holding the new
    value of [status] only, as metadata under the booking identifier
    ([cancel_booking], line 46), then the annotation BookingStatus =
    CANCELLED (line 90). *)
Theorem success_trace (event : gmap string PyVal) (ctx : unit) (w : World)
    (b : bool) :
  result (lambda_handler event ctx) w = Returned b ->
  exists v,
    event !! "bookingId" = Some v /\
    trace (final (lambda_handler event ctx) w)
      = trace w
          ++ [Metadata v (MetaResponse
                            (mkUpdateItemResponse
                               {["status" := PStr "CANCELLED"]}));
              Annotation "BookingStatus" "CANCELLED"].
Proof.
  intros Hres. unfold result, final in *.
  destruct (event !! "bookingId") as [v|] eqn:Hev.
  - rewrite (lambda_handler_by_answer event ctx w v Hev) in *.
    destruct (service_answer w (cancel_request v)) as [err|[tbl' resp]] eqn:Hans;
      [discriminate|].
    destruct (service_answer_accepted _ _ _ _ Hans)
      as (_ & id & attrs & _ & _ & _ & ->).
    exists v. split; [reflexivity|]. cbn [snd trace].
    rewrite <- app_assoc. reflexivity.
  - rewrite (lambda_handler_run_invalid event ctx w Hev) in Hres. discriminate.
Qed.

Lemma success_trace_witness :
  result (lambda_handler {[ "bookingId" := PStr "abc123" ]} tt) booked
    = Returned true /\
  exists v,
    trace (final (lambda_handler {[ "bookingId" := PStr "abc123" ]} tt) booked)
      = trace booked
          ++ [Metadata v (MetaResponse
                            (mkUpdateItemResponse
                               {["status" := PStr "CANCELLED"]}));
              Annotation "BookingStatus" "CANCELLED"].
Proof.
  assert (H : result (lambda_handler {[ "bookingId" := PStr "abc123" ]} tt) booked
              = Returned true)
    by (vm_compute; reflexivity).
  split; [exact H|].
  destruct (success_trace _ tt booked _ H) as (v & _ & Htr).
  exists v. exact Htr.
Defined.

Lemma booking_status_annotations_app (tr1 tr2 : list TraceEvent) :
  booking_status_annotations (tr1 ++ tr2)
    = booking_status_annotations tr1 ++ booking_status_annotations tr2.
Proof.
  induction tr1 as [|ev tr1 IH]; [reflexivity|].
  destruct ev as [key value|key value]; cbn; [|exact IH].
  destruct (String.eqb key "BookingStatus"); cbn; now rewrite IH.
Qed.

(** X9: the BookingStatus annotation follows the outcome.  A run of
    [lambda_handler] adds exactly one BookingStatus annotation, CANCELLED,
    when it returns; exactly one, ERROR, when it raises a
    [BookingCancellationException]; and none when it raises the [ValueError]
    of an invalid event. *)
Theorem status_annotation_follows_outcome (event : gmap string PyVal)
    (ctx : unit) (w : World) :
  booking_status_annotations (trace (final (lambda_handler event ctx) w))
    = booking_status_annotations (trace w)
        ++ status_of_outcome (result (lambda_handler event ctx) w).
Proof.
  unfold result, final. destruct (event !! "bookingId") as [v|] eqn:Hev.
  - rewrite (lambda_handler_by_answer event ctx w v Hev).
    destruct (service_answer w (cancel_request v)) as [err|[tbl' resp]];
      cbn [fst snd trace status_of_outcome];
      rewrite !booking_status_annotations_app; cbn;
      now rewrite ?app_nil_r, <- ?app_assoc.
  - rewrite (lambda_handler_run_invalid event ctx w Hev).
    cbn. now rewrite app_nil_r.
Qed.

(** ** Invoking the handler again *)

(** The calls and the pending answers [lambda_handler] leaves on an event
    with a [bookingId]. *)
Lemma lambda_handler_calls (event : gmap string PyVal) ctx (w : World)
    (v : PyVal) :
  event !! "bookingId" = Some v ->
  calls (final (lambda_handler event ctx) w) = calls w ++ [cancel_request v] /\
  pending (final (lambda_handler event ctx) w) = tail (pending w).
Proof.
  intros Hev. unfold final. rewrite (lambda_handler_by_answer event ctx w v Hev).
  now destruct (service_answer w (cancel_request v)) as [err|[tbl' resp]].
Qed.

(** X10: invoking [lambda_handler] again on the same event after it returned
    returns [True] again, provided the service does not reject the second
    request: the second run sends the same request once more and leaves the
    table as the first run left it. *)
Theorem handler_twice (event : gmap string PyVal) (ctx : unit) (w : World)
    (b : bool) :
  result (lambda_handler event ctx) w = Returned b ->
  next_fault (final (lambda_handler event ctx) w) = None ->
  result (lambda_handler event ctx) (final (lambda_handler event ctx) w)
    = Returned true /\
  table (final (lambda_handler event ctx) (final (lambda_handler event ctx) w))
    = table (final (lambda_handler event ctx) w) /\
  exists v,
    event !! "bookingId" = Some v /\
    calls (final (lambda_handler event ctx) (final (lambda_handler event ctx) w))
      = calls w ++ [cancel_request v; cancel_request v].
Proof.
  intros Hres Hfault. set (w1 := final (lambda_handler event ctx) w) in *.
  destruct (event !! "bookingId") as [v|] eqn:Hev.
  - assert (Hrec : exists id attrs,
               v = PStr id /\ table w1 !! id = Some (cancelled attrs)).
    { subst w1. rewrite lambda_handler_table, Hev.
      rewrite (lambda_handler_result event ctx w v Hev) in Hres.
      destruct (service_answer w (cancel_request v))
        as [err|[tbl' resp]] eqn:Hans; [discriminate|].
      destruct (service_answer_accepted _ _ _ _ Hans)
        as (_ & id & attrs & -> & _ & -> & _).
      exists id, attrs. split; [reflexivity|apply lookup_insert_eq]. }
    destruct Hrec as (id & attrs & -> & Hrec).
    assert (Hans1 : service_answer w1 (cancel_request (PStr id))
                    = inr (<[id := cancelled (cancelled attrs)]> (table w1),
                           mkUpdateItemResponse {["status" := PStr "CANCELLED"]})).
    { unfold service_answer. rewrite Hfault.
      apply dynamodb_cancel_existing, Hrec. }
    split; [|split].
    + rewrite (lambda_handler_result event ctx w1 _ Hev), Hans1. reflexivity.
    + rewrite (lambda_handler_table event ctx w1), Hev, Hans1.
      apply insert_id. rewrite Hrec. f_equal. unfold cancelled.
      symmetry. apply insert_insert_eq.
    + exists (PStr id). split; [reflexivity|].
      rewrite (proj1 (lambda_handler_calls event ctx w1 _ Hev)). subst w1.
      rewrite (proj1 (lambda_handler_calls event ctx w _ Hev)).
      rewrite <- app_assoc. reflexivity.
  - unfold result in Hres.
    rewrite (lambda_handler_run_invalid event ctx w Hev) in Hres. discriminate.
Qed.

Lemma handler_twice_witness :
  (result (lambda_handler {[ "bookingId" := PStr "abc123" ]} tt) booked
     = Returned true /\
   next_fault (final (lambda_handler {[ "bookingId" := PStr "abc123" ]} tt) booked)
     = None) /\
  result (lambda_handler {[ "bookingId" := PStr "abc123" ]} tt)
         (final (lambda_handler {[ "bookingId" := PStr "abc123" ]} tt) booked)
    = Returned true.
Proof.
  assert (H1 : result (lambda_handler {[ "bookingId" := PStr "abc123" ]} tt) booked
               = Returned true)
    by (vm_compute; reflexivity).
  assert (H2 : next_fault
                 (final (lambda_handler {[ "bookingId" := PStr "abc123" ]} tt)
                        booked) = None)
    by (vm_compute; reflexivity).
  split; [auto|].
  exact (proj1 (handler_twice _ tt booked _ H1 H2)).
Defined.

(** X11: a rejected request does no harm to a later one.  When the record
    exists and the service rejects the request of a first run, that run
    raises; a second run on the same event, whose request the service lets
    through, returns [True] and leaves the record CANCELLED, its other
    attributes being those it had before the first run. *)
Theorem retry_after_rejection (event : gmap string PyVal) (ctx : unit)
    (w : World) (id : string) (attrs : gmap string PyVal) (err : ClientError) :
  event !! "bookingId" = Some (PStr id) ->
  table w !! id = Some attrs ->
  next_fault w = Some err ->
  next_fault (final (lambda_handler event ctx) w) = None ->
  (exists e, result (lambda_handler event ctx) w
             = Raised (BookingCancellationExn e)) /\
  result (lambda_handler event ctx) (final (lambda_handler event ctx) w)
    = Returned true /\
  table (final (lambda_handler event ctx) (final (lambda_handler event ctx) w))
    = <[id := cancelled attrs]> (table w).
Proof.
  intros Hev Hrec Hfault Hnext.
  set (w1 := final (lambda_handler event ctx) w) in *.
  assert (Hans : service_answer w (cancel_request (PStr id)) = inl err)
    by (now apply service_rejects_fault).
  assert (Htbl : table w1 = table w).
  { subst w1. rewrite lambda_handler_table, Hev, Hans. reflexivity. }
  assert (Hans1 : service_answer w1 (cancel_request (PStr id))
                  = inr (<[id := cancelled attrs]> (table w),
                         mkUpdateItemResponse {["status" := PStr "CANCELLED"]})).
  { unfold service_answer. rewrite Hnext, Htbl.
    apply dynamodb_cancel_existing, Hrec. }
  split; [|split].
  - rewrite (lambda_handler_result event ctx w _ Hev), Hans. eauto.
  - rewrite (lambda_handler_result event ctx w1 _ Hev), Hans1. reflexivity.
  - rewrite (lambda_handler_table event ctx w1), Hev, Hans1. reflexivity.
Qed.

Lemma retry_after_rejection_witness :
  (({[ "bookingId" := PStr "abc123" ]} : gmap string PyVal) !! "bookingId"
     = Some (PStr "abc123") /\
   table throttled !! "abc123" = Some {[ "status" := PStr "CONFIRMED" ]} /\
   next_fault throttled = Some ProvisionedThroughputExceededException /\
   next_fault (final (lambda_handler {[ "bookingId" := PStr "abc123" ]} tt)
                     throttled) = None) /\
  result (lambda_handler {[ "bookingId" := PStr "abc123" ]} tt)
         (final (lambda_handler {[ "bookingId" := PStr "abc123" ]} tt) throttled)
    = Returned true.
Proof.
  assert (H1 : ({[ "bookingId" := PStr "abc123" ]} : gmap string PyVal)
                 !! "bookingId" = Some (PStr "abc123"))
    by (vm_compute; reflexivity).
  assert (H2 : table throttled !! "abc123"
               = Some ({[ "status" := PStr "CONFIRMED" ]} : gmap string PyVal))
    by (vm_compute; reflexivity).
  assert (H3 : next_fault throttled
               = Some ProvisionedThroughputExceededException)
    by reflexivity.
  assert (H4 : next_fault
                 (final (lambda_handler {[ "bookingId" := PStr "abc123" ]} tt)
                        throttled) = None)
    by (vm_compute; reflexivity).
  split; [auto|].
  exact (proj1 (proj2 (retry_after_rejection _ tt throttled _ _ _ H1 H2 H3 H4))).
Defined.
